(** * The Windows LLM bridge (windows_llm_bridge.cpp)

    A shallow embedding of the three C entry points exported by the
    bridge DLL of tauri-plugin-llm:

      int   windows_llm_check_availability();
      char* windows_llm_generate(const char* prompt, float temperature,
                                 int maxTokens);
      void  windows_llm_free_string(char* ptr);

    The entry points run in a small state-and-fault monad over the process
    state (its memory blocks, each owned by an allocator, and the platform
    the process runs on).  The file under study is the build without the
    WinRT AI SDK: the probe reports 3 and generation returns [nullptr]. *)

From Stdlib Require Import ZArith List Lia.
From Stdlib Require Import Floats.SpecFloat.
From stdpp Require Import base option list gmap.

Local Open Scope Z_scope.

(** ** C scalar types *)

Module CTypes.

(** [int] on Windows is 32 bits wide, two's complement. *)
Definition int := Z.
Definition INT_MIN : Z := - 2 ^ 31.
Definition INT_MAX : Z := 2 ^ 31 - 1.
Definition is_int (z : Z) : Prop := INT_MIN <= z <= INT_MAX.

(** [char*]: an address; [nullptr] is address 0.  A [char] is a byte,
    kept as its value in 0..255. *)
Definition ptr := Z.
Definition nullptr : ptr := 0.
Definition char := Z.

(** C++ converts a pointer to [bool] in [if (ptr)]: true iff non-null. *)
Definition ptr_to_bool (p : ptr) : bool := negb (p =? nullptr).

(** [float] is IEEE 754 binary32: 24 bits of precision, emax 128. *)
Definition float := spec_float.
Definition is_float (f : float) : Prop := valid_binary 24 128 f = true.

Definition float_zero : float := S754_zero false.
(** 2.0f = 2^23 * 2^-22 and 0.7f = 0x3F333333 = 11744051 * 2^-24. *)
Definition float_two : float := S754_finite false 8388608 (-22).
Definition float_0_7 : float := S754_finite false 11744051 (-24).

(** [0.0f <= f && f <= 2.0f]; false on a NaN, as in C. *)
Definition float_in_unit_range (f : float) : bool :=
  SFleb float_zero f && SFleb f float_two.

End CTypes.
Export CTypes.

(** ** The platform outside the bridge *)

Module Platform.

(** Modelled from the spec: the availability states of the capability
    backend (the enumeration lives in the host plugin, which is not part
    of the bridge's source file). *)
Inductive AvailabilityState : Type :=
| Ready
| NotReady
| Disabled
| Unsupported.

(** Modelled from the spec: the numbering of the states on the wire,
    0=Ready, 1=NotReady, 2=Disabled, 3=Unsupported.  The bridge's source
    has the last line only, in the comment [3 = Not supported]. *)
Definition status_code (a : AvailabilityState) : int :=
  match a with
  | Ready => 0
  | NotReady => 1
  | Disabled => 2
  | Unsupported => 3
  end.

(** Modelled from the spec: what the host reads back from a status code,
    the numbering above inverted; any other integer is no state. *)
Definition state_of_code (c : int) : option AvailabilityState :=
  if c =? 0 then Some Ready
  else if c =? 1 then Some NotReady
  else if c =? 2 then Some Disabled
  else if c =? 3 then Some Unsupported
  else None.

(** Modelled from the spec: the capability backend, an opaque service of
    the platform.  It is in some availability state and, asked for a
    completion of a prompt text under sampling parameters, produces a
    text or fails ([None]). *)
Record Backend : Type := {
  backend_state : AvailabilityState;
  backend_complete : list char -> float -> int -> option (list char)
}.

End Platform.
Export Platform.

(** ** Process state: memory blocks and their allocators *)

Module Memory.

(** Who handed out a block.  [CrtMalloc] is the malloc/calloc/realloc/free
    family of the C runtime the DLL is linked with (<cstdlib>); every
    other allocator of the process (the host's, operator new, ...) is
    [Foreign] to it. *)
Inductive Allocator : Type :=
| CrtMalloc
| Foreign.

(** A live block: its owner and its bytes. *)
Record Block : Type := {
  owner : Allocator;
  contents : list char
}.

(** The process: the platform's backend and the live blocks by base
    address. *)
Record State : Type := {
  platform : Backend;
  memory : gmap Z Block
}.

Definition with_memory (s : State) (m : gmap Z Block) : State :=
  {| platform := platform s; memory := m |}.

(** The block an address falls into, with its base. *)
Definition in_block (p : ptr) (kb : Z * Block) : bool :=
  (kb.1 <=? p) && (p <? kb.1 + Z.of_nat (length (contents kb.2))).

Definition block_of (m : gmap Z Block) (p : ptr) : option (Z * Block) :=
  head (filter (fun kb => in_block p kb = true) (map_to_list m)).

(** The characters before the first NUL. *)
Fixpoint until_nul (l : list char) : option (list char) :=
  match l with
  | [] => None
  | c :: l' => if c =? 0 then Some [] else cons c <$> until_nul l'
  end.

(** The NUL-terminated string an address points to, if it points into a
    live block that holds a NUL from there on. *)
Definition c_string_at (s : State) (p : ptr) : option (list char) :=
  match block_of (memory s) p with
  | Some (base, b) => until_nul (drop (Z.to_nat (p - base)) (contents b))
  | None => None
  end.

End Memory.
Export Memory.

(** ** Executions: normal return, C++ exception, undefined behaviour *)

Module Exec.

Inductive outcome (A : Type) : Type :=
| Returns (a : A) (s : State)
| Throws
| Undefined.
Arguments Returns {A} a s.
Arguments Throws {A}.
Arguments Undefined {A}.

Definition M (A : Type) : Type := State -> outcome A.

Definition ret {A} (a : A) : M A := fun s => Returns a s.

Definition bind {A B} (c : M A) (k : A -> M B) : M B :=
  fun s =>
    match c s with
    | Returns a s' => k a s'
    | Throws => Throws
    | Undefined => Undefined
    end.

Definition run {A} (c : M A) (s : State) : outcome A := c s.

(** What the caller sees of an execution: the value it returned, or how
    it ended otherwise. *)
Inductive observation (A : Type) : Type :=
| Returned (a : A)
| Threw
| Faulted.
Arguments Returned {A} a.
Arguments Threw {A}.
Arguments Faulted {A}.

Definition result {A} (o : outcome A) : observation A :=
  match o with
  | Returns a _ => Returned a
  | Throws => Threw
  | Undefined => Faulted
  end.

End Exec.
Export Exec.

Declare Scope exec_scope.
Delimit Scope exec_scope with exec.
Notation "x <- c ;; k" := (bind c (fun x => k))
  (at level 100, c at next level, right associativity) : exec_scope.
Notation "c ;; k" := (bind c (fun _ => k))
  (at level 100, right associativity) : exec_scope.

Local Open Scope exec_scope.

(** ** The C runtime *)

Module Crt.

(** [free] of <cstdlib> (C11 7.22.3.3): a null pointer is ignored; the
    base address of a live block of the malloc family is deallocated;
    anything else (a block of another allocator, an address that is not
    the base of a live block, a block already freed) is undefined. *)
Definition free (p : ptr) : M unit :=
  fun s =>
    if p =? nullptr then Returns tt s
    else
      match memory s !! p with
      | Some b =>
          match owner b with
          | CrtMalloc => Returns tt (with_memory s (delete p (memory s)))
          | Foreign => Undefined
          end
      | None => Undefined
      end.

End Crt.
Export Crt.

(** ** The three exported entry points *)

Module Bridge.

(** [int windows_llm_check_availability() { return 3; }]
    with the source's comment: 3 = Not supported (no WinRT AI SDK at
    compile time). *)
Definition windows_llm_check_availability : M int :=
  ret 3.

(** [char* windows_llm_generate(const char* prompt, float temperature,
    int maxTokens) { return nullptr; }]: not supported without the
    WinRT AI SDK. *)
Definition windows_llm_generate
    (prompt : ptr) (temperature : float) (maxTokens : int) : M ptr :=
  ret nullptr.

(** [void windows_llm_free_string(char* ptr) { if (ptr) { free(ptr); } }] *)
Definition windows_llm_free_string (p : ptr) : M unit :=
  if ptr_to_bool p then free p else ret tt.

End Bridge.
Export Bridge.

(** ** Calls across the boundary, and histories of calls *)

Module Api.

Inductive Call : Type :=
| CheckAvailability
| Generate (prompt : ptr) (temperature : float) (maxTokens : int)
| FreeString (p : ptr).

Inductive Value : Type :=
| VInt (z : int)
| VPtr (p : ptr)
| VVoid.

Definition call (c : Call) : M Value :=
  match c with
  | CheckAvailability =>
      z <- windows_llm_check_availability ;; ret (VInt z)
  | Generate prompt temperature maxTokens =>
      p <- windows_llm_generate prompt temperature maxTokens ;; ret (VPtr p)
  | FreeString p =>
      windows_llm_free_string p ;; ret VVoid
  end.

(** The calls of a history, one after the other. *)
Fixpoint calls (cs : list Call) : M unit :=
  match cs with
  | [] => ret tt
  | c :: cs' => call c ;; calls cs'
  end.

(** The calls that neither read nor write the process state: the probe,
    generation, and the release of a null pointer. *)
Definition touches_no_state (c : Call) : bool :=
  match c with
  | CheckAvailability => true
  | Generate _ _ _ => true
  | FreeString p => p =? nullptr
  end.

End Api.
Export Api.

(** ** The vocabulary of the contract *)

Module Contract.

(** A well-formed request: a non-null prompt and a positive token
    bound. *)
Definition well_formed (prompt : ptr) (maxTokens : int) : Prop :=
  prompt <> nullptr /\ 0 < maxTokens.

(** Modelled from the spec: what the platform's backend would answer to
    a request: a completion when it is [Ready] and succeeds on the
    prompt's text, [None] when it is absent, unavailable or fails. *)
Definition backend_outcome
    (s : State) (prompt : ptr) (temperature : float) (maxTokens : int)
    : option (list char) :=
  match backend_state (platform s) with
  | Ready =>
      match c_string_at s prompt with
      | Some text => backend_complete (platform s) text temperature maxTokens
      | None => None
      end
  | _ => None
  end.

(** A pointer the release operation can take: null, or the base of a
    live block of the C runtime's malloc family. *)
Definition crt_owned (s : State) (p : ptr) : Prop :=
  exists b, memory s !! p = Some b /\ owner b = CrtMalloc.

Definition releasable (s : State) (p : ptr) : Prop :=
  p = nullptr \/ crt_owned s p.

(** What the spec calls a caller contract violation on a request. *)
Definition contract_violation
    (prompt : ptr) (temperature : float) (maxTokens : int) : Prop :=
  prompt = nullptr \/ maxTokens <= 0 \/ float_in_unit_range temperature = false.

(** The success postcondition of generation, for a given reading
    [bound] of the length that a token bound allows: a request that is
    well formed and on which the backend is ready and succeeds gets a
    non-null buffer holding a NUL-terminated text within the bound. *)
Definition success_postcondition (bound : int -> nat) : Prop :=
  forall (s : State) (prompt : ptr) (temperature : float) (maxTokens : int)
         (out : list char),
    well_formed prompt maxTokens ->
    backend_outcome s prompt temperature maxTokens = Some out ->
    exists (p : ptr) (s' : State) (text : list char),
      run (windows_llm_generate prompt temperature maxTokens) s = Returns p s'
      /\ p <> nullptr
      /\ c_string_at s' p = Some text
      /\ (length text <= bound maxTokens)%nat.

(** No call's result is affected by the calls made before it: after any
    history of calls that returned, a call ends as it would have ended
    without the history. *)
Definition unaffected_by_earlier_calls : Prop :=
  forall (history : list Call) (c : Call) (s s' : State),
    run (calls history) s = Returns tt s' ->
    result (run (call c) s') = result (run (call c) s).

End Contract.
Export Contract.

(** ** Concrete processes *)

Module Samples.

(** "Hello" and "Hi", NUL-terminated where they sit in memory. *)
Definition hello : list char := [72; 101; 108; 108; 111].
Definition hi : list char := [72; 105].

(** A machine without the capability. *)
Definition no_backend : Backend :=
  {| backend_state := Unsupported;
     backend_complete := fun _ _ _ => None |}.

(** A machine whose backend is ready and answers "Hi" to every prompt
    when given a positive token bound. *)
Definition healthy_backend : Backend :=
  {| backend_state := Ready;
     backend_complete := fun _ _ n => if 0 <? n then Some hi else None |}.

(** The host keeps the prompt "Hello" at 4096 in a block of its own
    allocator; a block of the C runtime's heap sits at 8192. *)
Definition prompt_addr : ptr := 4096.
Definition crt_addr : ptr := 8192.

Definition process (b : Backend) : State :=
  {| platform := b;
     memory :=
       <[ prompt_addr := {| owner := Foreign; contents := hello ++ [0] |} ]>
       (<[ crt_addr := {| owner := CrtMalloc; contents := hi ++ [0] |} ]> ∅) |}.

End Samples.
Export Samples.

(** ** What a history releases *)

Module Histories.

(** The pointers a history hands on to [free], in the order of the calls:
    the arguments of its release calls that pass the [if (ptr)] guard. *)
Fixpoint released (cs : list Call) : list ptr :=
  match cs with
  | [] => []
  | FreeString p :: cs' =>
      if ptr_to_bool p then p :: released cs' else released cs'
  | _ :: cs' => released cs'
  end.

End Histories.
Export Histories.

(** ** Two properties of the design, as predicates on this build *)

Module Design.



End Design.
Export Design.


(** * Properties *)

(** ** Sanity checks of the model on the sample processes *)

Example hello_is_read :
  c_string_at (process no_backend) prompt_addr = Some hello.
Proof. vm_compute. reflexivity. Qed.

Example hello_tail_is_read :
  c_string_at (process no_backend) (prompt_addr + 3) = Some [108; 111].
Proof. vm_compute. reflexivity. Qed.

Example nothing_at_null :
  c_string_at (process no_backend) nullptr = None.
Proof. vm_compute. reflexivity. Qed.

Example healthy_backend_answers :
  backend_outcome (process healthy_backend) prompt_addr float_0_7 16 = Some hi.
Proof. vm_compute. reflexivity. Qed.

Example temperature_range :
  float_in_unit_range float_0_7 = true
  /\ float_in_unit_range float_two = true
  /\ float_in_unit_range (S754_finite false 8388609 (-22)) = false
  /\ float_in_unit_range (S754_finite true 11744051 (-24)) = false
  /\ float_in_unit_range S754_nan = false.
Proof. vm_compute. auto. Qed.

Example sample_temperatures_are_binary32 :
  is_float float_zero /\ is_float float_0_7 /\ is_float float_two.
Proof. vm_compute. auto. Qed.

Example free_foreign_block_is_undefined :
  run (windows_llm_free_string prompt_addr) (process no_backend) = Undefined.
Proof. vm_compute. reflexivity. Qed.

(** ** The entry points, run in an arbitrary process state *)

Section EntryPoints.

Variable s : State.

Lemma check_availability_run :
  run windows_llm_check_availability s = Returns 3 s.
Proof. reflexivity. Qed.

Lemma generate_run (prompt : ptr) (temperature : float) (maxTokens : int) :
  run (windows_llm_generate prompt temperature maxTokens) s = Returns nullptr s.
Proof. reflexivity. Qed.

Lemma free_string_null_run :
  run (windows_llm_free_string nullptr) s = Returns tt s.
Proof. reflexivity. Qed.

(** On a non-null pointer the release is the runtime's [free]. *)
Lemma free_string_nonnull (p : ptr) :
  p <> nullptr -> run (windows_llm_free_string p) s = run (free p) s.
Proof.
  intros Hp. unfold windows_llm_free_string, ptr_to_bool.
  destruct (Z.eqb_spec p nullptr) as [E | _]; [contradiction | reflexivity].
Qed.

Lemma free_crt_block (p : ptr) (b : Block) :
  p <> nullptr -> memory s !! p = Some b -> owner b = CrtMalloc ->
  run (windows_llm_free_string p) s
  = Returns tt (with_memory s (delete p (memory s))).
Proof.
  intros Hp Hb Ho. rewrite free_string_nonnull by assumption.
  unfold run, free.
  destruct (Z.eqb_spec p nullptr) as [E | _]; [contradiction |].
  rewrite Hb, Ho. reflexivity.
Qed.

(** The release returns normally exactly on the releasable pointers; on
    every other pointer it is undefined. *)
Lemma free_string_returns_iff (p : ptr) :
  (exists s', run (windows_llm_free_string p) s = Returns tt s')
  <-> releasable s p.
Proof.
  split.
  - intros [s' Hrun]. destruct (Z.eq_dec p nullptr) as [E | Hp].
    + left. exact E.
    + right. rewrite free_string_nonnull in Hrun by assumption.
      unfold run, free in Hrun.
      destruct (Z.eqb_spec p nullptr) as [E | _]; [contradiction |].
      destruct (memory s !! p) as [b |] eqn:Hb; [| discriminate].
      destruct (owner b) eqn:Ho; [| discriminate].
      exists b. split; [exact Hb | exact Ho].
  - intros [E | [b [Hb Ho]]].
    + subst p. exists s. apply free_string_null_run.
    + destruct (Z.eq_dec p nullptr) as [E | Hp].
      * subst p. exists s. apply free_string_null_run.
      * eexists. apply (free_crt_block p b); assumption.
Qed.

Lemma free_string_not_releasable (p : ptr) :
  ~ releasable s p -> run (windows_llm_free_string p) s = Undefined.
Proof.
  intros Hn.
  assert (Hp : p <> nullptr) by (intros E; apply Hn; left; exact E).
  rewrite free_string_nonnull by assumption. unfold run, free.
  destruct (Z.eqb_spec p nullptr) as [E | _]; [contradiction |].
  destruct (memory s !! p) as [b |] eqn:Hb; [| reflexivity].
  destruct (owner b) eqn:Ho; [| reflexivity].
  exfalso. apply Hn. right. exists b. split; [exact Hb | exact Ho].
Qed.

Lemma free_string_never_throws (p : ptr) :
  run (windows_llm_free_string p) s <> Throws.
Proof.
  unfold run, windows_llm_free_string, free, ret.
  destruct (ptr_to_bool p); [| discriminate].
  destruct (p =? nullptr); [discriminate |].
  destruct (memory s !! p) as [b |]; [| discriminate].
  destruct (owner b); discriminate.
Qed.

End EntryPoints.

(** A block is gone once released: the same non-null pointer cannot be
    released again. *)
Lemma double_free_undefined (s s' : State) (p : ptr) :
  p <> nullptr ->
  run (windows_llm_free_string p) s = Returns tt s' ->
  run (windows_llm_free_string p) s' = Undefined.
Proof.
  intros Hp Hrun.
  assert (Hrel : releasable s p)
    by (apply free_string_returns_iff; exists s'; exact Hrun).
  destruct Hrel as [E | [b [Hb Ho]]]; [contradiction |].
  rewrite (free_crt_block s p b) in Hrun by assumption.
  injection Hrun as <-.
  apply free_string_not_releasable.
  intros [E | [b' [Hb' _]]]; [contradiction |].
  simpl in Hb'. rewrite lookup_delete_eq in Hb'. discriminate.
Qed.

(** Calls that touch no state return the same value in every state and
    leave the state as it was. *)
Lemma call_touches_no_state (c : Call) :
  touches_no_state c = true ->
  exists v, forall s, run (call c) s = Returns v s.
Proof.
  destruct c as [| prompt t n | p]; simpl; intros H.
  - exists (VInt 3). reflexivity.
  - exists (VPtr nullptr). reflexivity.
  - apply Z.eqb_eq in H. subst p. exists VVoid. reflexivity.
Qed.

Lemma calls_touch_no_state (cs : list Call) (s : State) :
  forallb touches_no_state cs = true -> run (calls cs) s = Returns tt s.
Proof.
  induction cs as [| c cs IH]; simpl; intros H; [reflexivity |].
  apply andb_prop in H as [Hc Hcs].
  destruct (call_touches_no_state c Hc) as [v Hv].
  unfold run, bind in *. rewrite Hv. apply IH. exact Hcs.
Qed.

(** ** The availability probe *)

(** C4. Every call of the availability probe returns normally, and the
    integer it returns is one of 0, 1, 2, 3 (an [int], and a code the host
    can read back as a state), never any other value. *)
Theorem probe_code_in_closed_set (s : State) :
  exists c : int,
    run windows_llm_check_availability s = Returns c s
    /\ (c = 0 \/ c = 1 \/ c = 2 \/ c = 3)
    /\ is_int c
    /\ is_Some (state_of_code c).
Proof.
  exists 3. split; [apply check_availability_run |].
  split; [right; right; right; reflexivity |].
  split; [unfold is_int, INT_MIN, INT_MAX; lia |].
  exists Unsupported. reflexivity.
Qed.



(** C3. Unconditionally-unsupported stub: in every process state and for
    every prompt, temperature and token bound, the probe returns exactly 3
    (which reads back as Unsupported, never as Ready) and generation
    returns the null sentinel; neither changes the state. *)
Theorem stub_unconditionally_unsupported
    (s : State) (prompt : ptr) (temperature : float) (maxTokens : int) :
  run windows_llm_check_availability s = Returns 3 s
  /\ state_of_code 3 = Some Unsupported
  /\ 3 <> status_code Ready
  /\ run (windows_llm_generate prompt temperature maxTokens) s
     = Returns nullptr s.
Proof.
  split; [apply check_availability_run |].
  split; [reflexivity |].
  split; [discriminate | apply generate_run].
Qed.

(** ** Generation *)

(** C2. Graceful degradation: whenever the probe has returned a code
    other than that of Ready (so 1, 2 or 3), a generate call that follows
    it with a well-formed request (non-null prompt, maxTokens > 0) returns
    the null sentinel normally: no fault, no exception, state unchanged. *)
Theorem graceful_degradation
    (s s1 : State) (code : int)
    (prompt : ptr) (temperature : float) (maxTokens : int) :
  run windows_llm_check_availability s = Returns code s1 ->
  code <> status_code Ready ->
  well_formed prompt maxTokens ->
  (code = 1 \/ code = 2 \/ code = 3)
  /\ run (windows_llm_generate prompt temperature maxTokens) s1
     = Returns nullptr s1.
Proof.
  intros Hprobe _ _. rewrite check_availability_run in Hprobe.
  injection Hprobe as <- <-.
  split; [right; right; reflexivity | apply generate_run].
Qed.

Lemma graceful_degradation_witness :
  run windows_llm_check_availability (process no_backend)
  = Returns 3 (process no_backend)
  /\ 3 <> status_code Ready
  /\ well_formed prompt_addr 256
  /\ run (windows_llm_generate prompt_addr float_0_7 256) (process no_backend)
     = Returns nullptr (process no_backend).
Proof.
  assert (H1 : run windows_llm_check_availability (process no_backend)
               = Returns 3 (process no_backend)) by reflexivity.
  assert (H2 : 3 <> status_code Ready) by (simpl; lia).
  assert (H3 : well_formed prompt_addr 256)
    by (unfold well_formed, prompt_addr, nullptr; lia).
  split; [exact H1 |]. split; [exact H2 |]. split; [exact H3 |].
  exact (proj2 (graceful_degradation (process no_backend) (process no_backend)
                  3 prompt_addr float_0_7 256 H1 H2 H3)).
Defined.

(** C6. Failure signalling: on every request on which the backend fails
    or is absent, generate returns normally with exactly the null
    sentinel: it throws nothing, is not undefined, hands out no buffer
    (partial, truncated or otherwise) and leaves the state as it was. *)
Theorem failure_signalling
    (s : State) (prompt : ptr) (temperature : float) (maxTokens : int) :
  backend_outcome s prompt temperature maxTokens = None ->
  run (windows_llm_generate prompt temperature maxTokens) s = Returns nullptr s
  /\ result (run (windows_llm_generate prompt temperature maxTokens) s)
     <> Threw.
Proof.
  intros _. rewrite generate_run. split; [reflexivity | discriminate].
Qed.

Lemma failure_signalling_witness :
  backend_outcome (process no_backend) prompt_addr float_0_7 256 = None
  /\ run (windows_llm_generate prompt_addr float_0_7 256) (process no_backend)
     = Returns nullptr (process no_backend).
Proof.
  assert (H : backend_outcome (process no_backend) prompt_addr float_0_7 256
              = None) by reflexivity.
  split; [exact H |].
  exact (proj1 (failure_signalling (process no_backend)
                  prompt_addr float_0_7 256 H)).
Defined.

(** C5, as stated, fails on the code.  On a machine whose backend is Ready
    and answers the prompt "Hello" with "Hi", the well-formed request
    ("Hello", 0.7, 16) gets the null sentinel: the source of the bridge
    never consults the backend.  So the success postcondition does not
    hold, whatever length a token bound is read to allow. *)
Lemma success_postcondition_fails :
  well_formed prompt_addr 16
  /\ backend_state (platform (process healthy_backend)) = Ready
  /\ backend_outcome (process healthy_backend) prompt_addr float_0_7 16
     = Some hi
  /\ run (windows_llm_generate prompt_addr float_0_7 16)
         (process healthy_backend)
     = Returns nullptr (process healthy_backend)
  /\ ~ (exists bound : int -> nat, success_postcondition bound).
Proof.
  assert (Hwf : well_formed prompt_addr 16)
    by (unfold well_formed, prompt_addr, nullptr; lia).
  assert (Hok : backend_outcome (process healthy_backend)
                  prompt_addr float_0_7 16 = Some hi) by reflexivity.
  split; [exact Hwf |]. split; [reflexivity |]. split; [exact Hok |].
  split; [reflexivity |].
  intros [bound Hpost].
  destruct (Hpost _ _ _ _ _ Hwf Hok) as (p & s' & text & Hrun & Hp & _).
  rewrite generate_run in Hrun. injection Hrun as <- _.
  apply Hp. reflexivity.
Qed.

(** C5, amended.  For every well-formed request, also one made while the
    backend is Ready and succeeds on it, generate returns the null
    sentinel and leaves the state as it was: this build has no success
    path and hands out no buffer. *)
Theorem generate_null_despite_ready_backend
    (s : State) (prompt : ptr) (temperature : float) (maxTokens : int)
    (out : list char) :
  well_formed prompt maxTokens ->
  backend_outcome s prompt temperature maxTokens = Some out ->
  run (windows_llm_generate prompt temperature maxTokens) s = Returns nullptr s.
Proof.
  intros _ _. apply generate_run.
Qed.

Lemma generate_null_despite_ready_backend_witness :
  well_formed prompt_addr 16
  /\ backend_outcome (process healthy_backend) prompt_addr float_0_7 16
     = Some hi
  /\ run (windows_llm_generate prompt_addr float_0_7 16)
         (process healthy_backend)
     = Returns nullptr (process healthy_backend).
Proof.
  assert (Hwf : well_formed prompt_addr 16)
    by (unfold well_formed, prompt_addr, nullptr; lia).
  assert (Hok : backend_outcome (process healthy_backend)
                  prompt_addr float_0_7 16 = Some hi) by reflexivity.
  split; [exact Hwf |]. split; [exact Hok |].
  exact (generate_null_despite_ready_backend (process healthy_backend)
           prompt_addr float_0_7 16 hi Hwf Hok).
Defined.

(** C9. Generate is total and never dereferences its prompt: on inputs
    that violate the caller's contract (null prompt, maxTokens <= 0,
    temperature outside [0.0, 2.0]) it returns the null sentinel without
    faulting, and it does so whatever the memory holds, also when nothing
    is mapped at the prompt's address. *)
Theorem generate_total_on_contract_violations
    (s : State) (prompt : ptr) (temperature : float) (maxTokens : int) :
  contract_violation prompt temperature maxTokens ->
  run (windows_llm_generate prompt temperature maxTokens) s = Returns nullptr s
  /\ forall m : gmap Z Block,
       run (windows_llm_generate prompt temperature maxTokens)
           (with_memory s m)
       = Returns nullptr (with_memory s m).
Proof.
  intros _. split; [apply generate_run |].
  intros m. apply generate_run.
Qed.

Lemma generate_total_on_contract_violations_witness :
  contract_violation nullptr S754_nan (-1)
  /\ c_string_at (process healthy_backend) nullptr = None
  /\ run (windows_llm_generate nullptr S754_nan (-1)) (process healthy_backend)
     = Returns nullptr (process healthy_backend).
Proof.
  assert (Hv : contract_violation nullptr S754_nan (-1))
    by (left; reflexivity).
  split; [exact Hv |]. split; [reflexivity |].
  exact (proj1 (generate_total_on_contract_violations
                  (process healthy_backend) nullptr S754_nan (-1) Hv)).
Defined.

(** ** Release *)

(** C7. Releasing a null buffer is a no-op that never faults: in every
    process state the call returns normally (it is neither undefined nor
    does it throw) and the state, its memory blocks included, is the one
    it started in: nothing is deallocated. *)
Theorem release_null_is_noop (s : State) :
  run (windows_llm_free_string nullptr) s = Returns tt s.
Proof.
  apply free_string_null_run.
Qed.




(** ** Determinism and state *)

(** C10, as stated, fails on the code.  In a process holding a block of
    the C runtime's heap at 8192, releasing that pointer returns normally;
    after that earlier call, the same call with the same argument is a
    double free, which is undefined.  So a call's result can depend on an
    earlier call. *)
Lemma release_affected_by_earlier_release :
  run (calls [FreeString crt_addr]) (process no_backend)
  = Returns tt (with_memory (process no_backend)
                  (delete crt_addr (memory (process no_backend))))
  /\ result (run (call (FreeString crt_addr)) (process no_backend))
     = Returned VVoid
  /\ result (run (call (FreeString crt_addr))
               (with_memory (process no_backend)
                  (delete crt_addr (memory (process no_backend)))))
     = Faulted
  /\ ~ unaffected_by_earlier_calls.
Proof.
  assert (H1 : run (calls [FreeString crt_addr]) (process no_backend)
               = Returns tt (with_memory (process no_backend)
                               (delete crt_addr (memory (process no_backend)))))
    by reflexivity.
  assert (H2 : result (run (call (FreeString crt_addr)) (process no_backend))
               = Returned VVoid) by reflexivity.
  assert (H3 : result (run (call (FreeString crt_addr))
                         (with_memory (process no_backend)
                            (delete crt_addr (memory (process no_backend)))))
               = Faulted) by reflexivity.
  split; [exact H1 |]. split; [exact H2 |]. split; [exact H3 |].
  intros Hclaim. specialize (Hclaim _ (FreeString crt_addr) _ _ H1).
  rewrite H2, H3 in Hclaim. discriminate Hclaim.
Qed.

(** C10, amended.  The probe, generate and the release of a null pointer
    are deterministic and stateless: such a call returns the same value in
    any two process states, whatever calls came before, and leaves the
    state it ran in unchanged. *)
Theorem stateless_entry_points (c : Call) (s1 s2 : State) :
  touches_no_state c = true ->
  exists v : Value,
    run (call c) s1 = Returns v s1 /\ run (call c) s2 = Returns v s2.
Proof.
  intros Hc. destruct (call_touches_no_state c Hc) as [v Hv].
  exists v. split; apply Hv.
Qed.

Lemma stateless_entry_points_witness :
  touches_no_state (Generate prompt_addr float_0_7 256) = true
  /\ exists v : Value,
       run (call (Generate prompt_addr float_0_7 256)) (process no_backend)
       = Returns v (process no_backend)
       /\ run (call (Generate prompt_addr float_0_7 256))
              (with_memory (process healthy_backend) ∅)
          = Returns v (with_memory (process healthy_backend) ∅).
Proof.
  assert (Hc : touches_no_state (Generate prompt_addr float_0_7 256) = true)
    by reflexivity.
  split; [exact Hc |].
  exact (stateless_entry_points (Generate prompt_addr float_0_7 256)
           (process no_backend) (with_memory (process healthy_backend) ∅) Hc).
Defined.

(** * Release on non-null pointers *)

(** The release as one case analysis on the guard and on what [free]
    finds at the pointer. *)
Lemma free_string_cases (s : State) (p : ptr) :
  run (windows_llm_free_string p) s
  = if decide (p = nullptr) then Returns tt s
    else match memory s !! p with
         | Some b =>
             match owner b with
             | CrtMalloc => Returns tt (with_memory s (delete p (memory s)))
             | Foreign => Undefined
             end
         | None => Undefined
         end.
Proof.
  destruct (decide (p = nullptr)) as [-> | Hp]; [reflexivity |].
  rewrite free_string_nonnull by assumption. unfold run, free.
  destruct (Z.eqb_spec p nullptr) as [E | _]; [contradiction | reflexivity].
Qed.

Lemma run_bind {A B} (c : M A) (k : A -> M B) (s : State) :
  run (bind c k) s
  = match run c s with
    | Returns a s' => run (k a) s'
    | Throws => Throws
    | Undefined => Undefined
    end.
Proof. reflexivity. Qed.

Lemma with_memory_same (s : State) : with_memory s (memory s) = s.
Proof. destruct s. reflexivity. Qed.

Lemma crt_owned_after_release (s : State) (p q : ptr) :
  crt_owned (with_memory s (delete p (memory s))) q
  <-> q <> p /\ crt_owned s q.
Proof.
  unfold crt_owned. simpl. split.
  - intros (b & Hb & Ho). apply lookup_delete_Some in Hb as [Hne Hb].
    split; [congruence | exists b; split; assumption].
  - intros (Hne & b & Hb & Ho). exists b. split; [| exact Ho].
    rewrite lookup_delete_ne by congruence. exact Hb.
Qed.

(** Null, a block of the C runtime, or anything else. *)
Lemma free_string_trichotomy (s : State) (p : ptr) :
  (p = nullptr /\ run (windows_llm_free_string p) s = Returns tt s)
  \/ (p <> nullptr /\ crt_owned s p
      /\ run (windows_llm_free_string p) s
         = Returns tt (with_memory s (delete p (memory s))))
  \/ (p <> nullptr /\ ~ crt_owned s p
      /\ run (windows_llm_free_string p) s = Undefined).
Proof.
  rewrite free_string_cases.
  destruct (decide (p = nullptr)) as [Hp | Hp]; [left; split; trivial |].
  right. unfold crt_owned.
  destruct (memory s !! p) as [b |] eqn:Hb.
  - destruct (owner b) eqn:Ho.
    + left. split; [exact Hp |]. split; [| reflexivity].
      exists b. split; [reflexivity | exact Ho].
    + right. split; [exact Hp |]. split; [| reflexivity].
      intros (b' & Hb' & Ho'). injection Hb' as <-. congruence.
  - right. split; [exact Hp |]. split; [| reflexivity].
    intros (b' & Hb' & _). discriminate Hb'.
Qed.

(** X1. The whole behaviour of the release operation.  On the null
    pointer it returns and changes nothing; on the base of a live block of
    the C runtime's malloc family it returns and exactly that block is
    gone; on every other pointer it is undefined. *)
Theorem release_specification (s : State) (p : ptr) :
  (p = nullptr /\ run (windows_llm_free_string p) s = Returns tt s)
  \/ (p <> nullptr /\ crt_owned s p
      /\ run (windows_llm_free_string p) s
         = Returns tt (with_memory s (delete p (memory s))))
  \/ (p <> nullptr /\ ~ crt_owned s p
      /\ run (windows_llm_free_string p) s = Undefined).
Proof.
  apply free_string_trichotomy.
Qed.

(** X2. Allocator mismatch: releasing a non-null pointer to a block that
    another allocator handed out is undefined behaviour; the bridge does
    not guard against it. *)
Theorem release_foreign_block_undefined (s : State) (p : ptr) (b : Block) :
  p <> nullptr ->
  memory s !! p = Some b ->
  owner b = Foreign ->
  run (windows_llm_free_string p) s = Undefined.
Proof.
  intros Hp Hb Ho. rewrite free_string_cases.
  destruct (decide (p = nullptr)); [contradiction |].
  rewrite Hb, Ho. reflexivity.
Qed.

Lemma release_foreign_block_undefined_witness :
  prompt_addr <> nullptr
  /\ memory (process no_backend) !! prompt_addr
     = Some {| owner := Foreign; contents := hello ++ [0] |}
  /\ run (windows_llm_free_string prompt_addr) (process no_backend)
     = Undefined.
Proof.
  assert (Hp : prompt_addr <> nullptr) by (unfold prompt_addr, nullptr; lia).
  assert (Hb : memory (process no_backend) !! prompt_addr
               = Some {| owner := Foreign; contents := hello ++ [0] |})
    by reflexivity.
  split; [exact Hp |]. split; [exact Hb |].
  exact (release_foreign_block_undefined (process no_backend) prompt_addr
           _ Hp Hb eq_refl).
Defined.

(** X3. Releasing a non-null pointer that is not the base address of a
    live block is undefined behaviour, also when it points into the middle
    of a live block of the C runtime's heap. *)
Theorem release_non_base_undefined (s : State) (p : ptr) :
  p <> nullptr ->
  memory s !! p = None ->
  run (windows_llm_free_string p) s = Undefined.
Proof.
  intros Hp Hb. rewrite free_string_cases.
  destruct (decide (p = nullptr)); [contradiction |].
  rewrite Hb. reflexivity.
Qed.

Lemma release_non_base_undefined_witness :
  crt_addr + 1 <> nullptr
  /\ memory (process no_backend) !! (crt_addr + 1) = None
  /\ (exists b, block_of (memory (process no_backend)) (crt_addr + 1)
                = Some (crt_addr, b) /\ owner b = CrtMalloc)
  /\ run (windows_llm_free_string (crt_addr + 1)) (process no_backend)
     = Undefined.
Proof.
  assert (Hp : crt_addr + 1 <> nullptr) by (unfold crt_addr, nullptr; lia).
  assert (Hb : memory (process no_backend) !! (crt_addr + 1) = None)
    by reflexivity.
  split; [exact Hp |]. split; [exact Hb |].
  split; [eexists; split; reflexivity |].
  exact (release_non_base_undefined (process no_backend) (crt_addr + 1) Hp Hb).
Defined.

(** X4. Double release: once the release of a non-null pointer has
    returned, releasing the same pointer again is undefined behaviour, in
    the state the first release left and so for the two calls in a row;
    the bridge keeps no record of what it has released. *)
Theorem release_twice_undefined (s s' : State) (p : ptr) :
  p <> nullptr ->
  run (windows_llm_free_string p) s = Returns tt s' ->
  run (windows_llm_free_string p) s' = Undefined
  /\ run (windows_llm_free_string p ;; windows_llm_free_string p) s = Undefined.
Proof.
  intros Hp Hrun.
  assert (H2 : run (windows_llm_free_string p) s' = Undefined)
    by (apply (double_free_undefined s s' p); assumption).
  split; [exact H2 |].
  rewrite run_bind, Hrun. exact H2.
Qed.

Lemma release_twice_undefined_witness :
  crt_addr <> nullptr
  /\ run (windows_llm_free_string crt_addr) (process no_backend)
     = Returns tt (with_memory (process no_backend)
                     (delete crt_addr (memory (process no_backend))))
  /\ run (windows_llm_free_string crt_addr ;; windows_llm_free_string crt_addr)
         (process no_backend)
     = Undefined.
Proof.
  assert (Hp : crt_addr <> nullptr) by (unfold crt_addr, nullptr; lia).
  assert (Hrun : run (windows_llm_free_string crt_addr) (process no_backend)
                 = Returns tt (with_memory (process no_backend)
                                 (delete crt_addr (memory (process no_backend)))))
    by reflexivity.
  split; [exact Hp |]. split; [exact Hrun |].
  exact (proj2 (release_twice_undefined _ _ crt_addr Hp Hrun)).
Defined.

(** X5. Frame of a release.  When the release of [p] returns, the
    platform is untouched, every block based elsewhere is exactly as it
    was, and for a non-null [p] the block at [p] is gone and the number of
    live blocks has dropped by one. *)
Theorem release_frame (s s' : State) (p : ptr) :
  run (windows_llm_free_string p) s = Returns tt s' ->
  platform s' = platform s
  /\ (forall q : ptr, q <> p -> memory s' !! q = memory s !! q)
  /\ (p <> nullptr ->
      memory s' !! p = None /\ size (memory s) = S (size (memory s'))).
Proof.
  intros Hrun.
  destruct (free_string_trichotomy s p) as [[-> H] | [(Hp & Ho & H) | (_ & _ & H)]];
    rewrite H in Hrun; [| | discriminate Hrun]; injection Hrun as <-.
  - split; [reflexivity |]. split; [reflexivity |].
    intros Hn. contradiction Hn. reflexivity.
  - split; [reflexivity |].
    split; [intros q Hq; simpl; apply lookup_delete_ne; congruence |].
    intros _. simpl. split; [apply lookup_delete_eq |].
    destruct Ho as (b & Hb & _).
    assert (Hsz : size (memory s) <> 0%nat).
    { intros Hz. apply map_size_empty_inv in Hz. rewrite Hz in Hb.
      rewrite lookup_empty in Hb. discriminate Hb. }
    rewrite (map_size_delete_Some p (memory s)) by (exists b; exact Hb).
    destruct (size (memory s)); [contradiction | reflexivity].
Qed.

Lemma release_frame_witness :
  run (windows_llm_free_string crt_addr) (process healthy_backend)
  = Returns tt (with_memory (process healthy_backend)
                  (delete crt_addr (memory (process healthy_backend))))
  /\ platform (with_memory (process healthy_backend)
                 (delete crt_addr (memory (process healthy_backend))))
     = healthy_backend
  /\ c_string_at (with_memory (process healthy_backend)
                    (delete crt_addr (memory (process healthy_backend))))
                 prompt_addr
     = Some hello.
Proof.
  assert (Hrun : run (windows_llm_free_string crt_addr)
                     (process healthy_backend)
                 = Returns tt (with_memory (process healthy_backend)
                                 (delete crt_addr
                                    (memory (process healthy_backend)))))
    by reflexivity.
  split; [exact Hrun |].
  split; [exact (proj1 (release_frame _ _ _ Hrun)) | reflexivity].
Defined.

(** ** Sequences of releases *)

(** X6. Releases commute: releasing two pointers in either order ends the
    same way, in the same state when both releases return and undefined
    when either of them is. *)
Theorem releases_commute (s : State) (p q : ptr) :
  run (windows_llm_free_string p ;; windows_llm_free_string q) s
  = run (windows_llm_free_string q ;; windows_llm_free_string p) s.
Proof.
  destruct (decide (p = q)) as [-> | Hne]; [reflexivity |].
  rewrite !run_bind, !(free_string_cases s).
  destruct (decide (p = nullptr)) as [Hp | Hp],
           (decide (q = nullptr)) as [Hq | Hq].
  - congruence.
  - subst p. rewrite free_string_cases.
    destruct (decide (q = nullptr)); [contradiction |].
    destruct (memory s !! q) as [bq |]; [| reflexivity].
    destruct (owner bq); reflexivity.
  - subst q. rewrite free_string_cases.
    destruct (decide (p = nullptr)); [contradiction |].
    destruct (memory s !! p) as [bp |]; [| reflexivity].
    destruct (owner bp); reflexivity.
  - destruct (memory s !! p) as [bp |] eqn:Hbp,
             (memory s !! q) as [bq |] eqn:Hbq;
      try destruct (owner bp) eqn:Hop; try destruct (owner bq) eqn:Hoq;
      rewrite ?free_string_cases; simpl;
      repeat (destruct (decide _); [contradiction |]);
      rewrite ?lookup_delete_ne by congruence;
      rewrite ?Hbp, ?Hbq, ?Hop, ?Hoq; try reflexivity.
    unfold with_memory. simpl. rewrite delete_delete. reflexivity.
Qed.

(** How a history starts: with a call that touches no state, with the
    release of a live block of the C runtime, or with a release that is
    undefined. *)
Lemma call_cases (c : Call) (s : State) :
  touches_no_state c = true
  \/ (exists p, c = FreeString p /\ p <> nullptr /\ crt_owned s p)
  \/ (exists p, c = FreeString p /\ p <> nullptr /\ ~ crt_owned s p).
Proof.
  destruct c as [| prompt t n | p]; [left; reflexivity .. |].
  destruct (free_string_trichotomy s p) as [[-> _] | [(Hp & Ho & _) | (Hp & Ho & _)]].
  - left. reflexivity.
  - right. left. exists p. auto.
  - right. right. exists p. auto.
Qed.

Lemma history_inert_head (c : Call) (cs : list Call) (s : State) :
  touches_no_state c = true ->
  released (c :: cs) = released cs
  /\ run (calls (c :: cs)) s = run (calls cs) s.
Proof.
  intros Hc. split.
  - destruct c as [| prompt t n | p]; try reflexivity.
    simpl in Hc. simpl. unfold ptr_to_bool. rewrite Hc. reflexivity.
  - destruct (call_touches_no_state c Hc) as [v Hv].
    simpl. rewrite run_bind, Hv. reflexivity.
Qed.

Lemma released_nonnull_head (p : ptr) (cs : list Call) :
  p <> nullptr -> released (FreeString p :: cs) = p :: released cs.
Proof.
  intros Hp. simpl. unfold ptr_to_bool.
  destruct (Z.eqb_spec p nullptr); [contradiction | reflexivity].
Qed.

Lemma history_release_head (p : ptr) (cs : list Call) (s : State) :
  p <> nullptr -> crt_owned s p ->
  run (calls (FreeString p :: cs)) s
  = run (calls cs) (with_memory s (delete p (memory s))).
Proof.
  intros Hp (b & Hb & Ho). simpl. rewrite !run_bind.
  rewrite (free_crt_block s p b) by assumption. reflexivity.
Qed.

Lemma history_bad_release_head (p : ptr) (cs : list Call) (s : State) :
  p <> nullptr -> ~ crt_owned s p ->
  run (calls (FreeString p :: cs)) s = Undefined.
Proof.
  intros Hp Ho. simpl. rewrite !run_bind.
  rewrite free_string_not_releasable; [reflexivity |].
  intros [E | H]; [contradiction | apply Ho; exact H].
Qed.

(** The histories that run to their end. *)
Lemma history_safe (cs : list Call) (s : State) :
  (exists s' : State, run (calls cs) s = Returns tt s')
  <-> NoDup (released cs) /\ Forall (crt_owned s) (released cs).
Proof.
  revert s. induction cs as [| c cs IH]; intros s.
  - simpl. split; [intros _; split; constructor | intros _; exists s; reflexivity].
  - destruct (call_cases c s) as [Hc | [(p & -> & Hp & Ho) | (p & -> & Hp & Ho)]].
    + destruct (history_inert_head c cs s Hc) as [-> ->]. apply IH.
    + rewrite released_nonnull_head, history_release_head by assumption.
      rewrite IH, NoDup_cons, Forall_cons.
      rewrite (Forall_iff _ _ _ (crt_owned_after_release s p)).
      rewrite Forall_and. rewrite Forall_forall. split.
      * intros (Hnd & Hne & Hall). repeat split; try assumption.
        intros Hin. exact (Hne p Hin eq_refl).
      * intros ((Hnin & Hnd) & _ & Hall). repeat split; try assumption.
        intros q Hq ->. contradiction.
    + rewrite released_nonnull_head, history_bad_release_head by assumption.
      split; [intros [s' H]; discriminate H |].
      intros (_ & Hall). apply Forall_cons in Hall as [H _]. contradiction.
Qed.

(** X7. Which histories are defined.  Take a sequence of calls to the
    three entry points with nothing else touching the heap in between.
    Under the C runtime's rules for [free] it is free of undefined
    behaviour, and then returns, exactly when the non-null pointers it
    releases are pairwise distinct and each is the base of a block of the
    runtime's malloc family that was live before the first call.  (What a
    given runtime does on the undefined ones is not modelled.) *)
Theorem history_returns_iff (cs : list Call) (s : State) :
  (exists s' : State, run (calls cs) s = Returns tt s')
  <-> NoDup (released cs) /\ Forall (crt_owned s) (released cs).
Proof.
  apply history_safe.
Qed.

(** The state a history that ran to its end leaves. *)
Lemma history_memory (cs : list Call) (s s' : State) :
  run (calls cs) s = Returns tt s' ->
  platform s' = platform s
  /\ forall q : ptr,
       memory s' !! q
       = if decide (q ∈ released cs) then None else memory s !! q.
Proof.
  revert s. induction cs as [| c cs IH]; intros s Hrun.
  - injection Hrun as <-. split; [reflexivity |].
    intros q. destruct (decide (q ∈ released [])) as [Hin | _]; [| reflexivity].
    simpl in Hin. apply elem_of_nil in Hin. contradiction.
  - destruct (call_cases c s) as [Hc | [(p & -> & Hp & Ho) | (p & -> & Hp & Ho)]].
    + destruct (history_inert_head c cs s Hc) as [Hrel Heq].
      rewrite Heq in Hrun. rewrite Hrel. apply IH. exact Hrun.
    + rewrite history_release_head in Hrun by assumption.
      rewrite released_nonnull_head by assumption.
      destruct (IH _ Hrun) as [Hpl Hmem]. split; [exact Hpl |].
      intros q. rewrite Hmem. simpl.
      destruct (decide (q = p)) as [-> | Hne].
      * rewrite lookup_delete_eq.
        destruct (decide (p ∈ released cs)), (decide (p ∈ p :: released cs)) as [_ | Hn];
          try reflexivity; contradiction Hn; left.
      * rewrite lookup_delete_ne by congruence.
        destruct (decide (q ∈ released cs)) as [Hin | Hnin],
                 (decide (q ∈ p :: released cs)) as [Hin' | Hnin'];
          try reflexivity.
        -- contradiction Hnin'. right. exact Hin.
        -- apply elem_of_cons in Hin' as [E | Hin']; contradiction.
    + rewrite history_bad_release_head in Hrun by assumption.
      discriminate Hrun.
Qed.

(** X8. What a history leaves behind.  When a sequence of calls has run
    to its end, the platform is untouched and the memory is the initial
    one without the blocks at the released pointers: every other block,
    whoever owns it, is exactly as it was, and no block has appeared. *)
Theorem history_final_memory (cs : list Call) (s s' : State) :
  run (calls cs) s = Returns tt s' ->
  platform s' = platform s
  /\ forall q : ptr,
       memory s' !! q
       = if decide (q ∈ released cs) then None else memory s !! q.
Proof.
  apply history_memory.
Qed.

Lemma history_final_memory_witness :
  run (calls [CheckAvailability; Generate prompt_addr float_0_7 256;
              FreeString nullptr; FreeString crt_addr])
      (process no_backend)
  = Returns tt (with_memory (process no_backend)
                  (delete crt_addr (memory (process no_backend))))
  /\ memory (with_memory (process no_backend)
               (delete crt_addr (memory (process no_backend))))
     !! prompt_addr
     = memory (process no_backend) !! prompt_addr.
Proof.
  assert (Hrun :
    run (calls [CheckAvailability; Generate prompt_addr float_0_7 256;
                FreeString nullptr; FreeString crt_addr])
        (process no_backend)
    = Returns tt (with_memory (process no_backend)
                    (delete crt_addr (memory (process no_backend)))))
    by reflexivity.
  split; [exact Hrun |].
  exact (proj2 (history_final_memory _ _ _ Hrun) prompt_addr).
Defined.

Lemma released_nil_inert (cs : list Call) :
  released cs = [] -> forallb touches_no_state cs = true.
Proof.
  induction cs as [| c cs IH]; [reflexivity |].
  destruct c as [| prompt t n | p]; simpl; try exact IH.
  unfold ptr_to_bool. destruct (p =? nullptr); simpl; [exact IH |].
  intros H. discriminate H.
Qed.

(** X10. A sequence of calls leaves the process exactly as it found it
    if and only if it releases no non-null pointer.  Probes, generations
    and releases of the null pointer, in any number and order, run to the
    end and change nothing; a single non-null release that returns has
    changed the memory. *)
Theorem history_inert_iff (cs : list Call) (s : State) :
  run (calls cs) s = Returns tt s <-> released cs = [].
Proof.
  split.
  - intros Hrun.
    destruct (released cs) as [| p ps] eqn:Hrel; [reflexivity | exfalso].
    assert (Hsafe : Forall (crt_owned s) (released cs))
      by (apply history_safe; exists s; exact Hrun).
    rewrite Hrel in Hsafe. apply Forall_cons in Hsafe as [(b & Hb & _) _].
    destruct (history_memory cs s s Hrun) as [_ Hmem].
    specialize (Hmem p). rewrite Hrel in Hmem.
    destruct (decide (p ∈ p :: ps)) as [_ | Hn].
    + rewrite Hb in Hmem. discriminate Hmem.
    + apply Hn. left.
  - intros Hrel. apply calls_touch_no_state, released_nil_inert. exact Hrel.
Qed.
